(** * Reducer contexts of react-context, embedded and verified

    The development follows [src/reducer-context.tsx] (the factory
    [createReducerContext]) and the error class [MissingStateContextError].
    Generic type parameters of the TypeScript source become type variables;
    hooks that read the context take the state of the context object as an
    explicit argument and return an [outcome], because reading a context with
    no mounted provider throws. *)

From Stdlib Require Import String Ascii List.
Import ListNotations.
Open Scope string_scope.

Set Implicit Arguments.

(** ** JavaScript values of a generic type *)

(** At run time a value of a generic type such as [State] is [undefined],
    [null], or some other value; [T] is the type of the other values.  A
    property that is absent from a props object reads as [undefined]. *)
Inductive js (T : Type) : Type :=
| undefined : js T
| null : js T
| defined (v : T) : js T.

Arguments undefined {T}.
Arguments null {T}.

(** [a ?? b]: the right operand is taken exactly when the left one is
    [null] or [undefined]. *)
Definition nullish_coalescing {T : Type} (a b : js T) : js T :=
  match a with
  | defined _ => a
  | undefined | null => b
  end.

Infix "??" := nullish_coalescing (at level 45, left associativity).

(** [`${x}`] for [x : string | undefined]. *)
Definition ToString (x : option string) : string :=
  match x with
  | Some s => s
  | None => "undefined"
  end.

(** Array destructuring [[head, ...rest] = values]; [None] stands for the
    [undefined] read from an empty array. *)
Definition destructure_rest {X : Type} (values : list X) : option X * list X :=
  match values with
  | [] => (None, [])
  | head :: rest => (Some head, rest)
  end.

(** ** Errors and outcomes *)

Record Error : Type := { message : string }.

Definition LF : string := String "010" EmptyString.

(** [class MissingStateContextError extends Error]: the constructor hands a
    template literal to [super]. *)
Definition MissingStateContextError (displayName : option string) : Error :=
  {| message :=
       LF ++ "      Attempt to read value from state context '"
          ++ ToString displayName ++ "'," ++ LF
          ++ "      make sure that the context provider is being used and is mounted"
          ++ LF ++ "      in the component tree."
          ++ LF ++ "    " |}.


(** [includes s sub]: [sub] occurs in [s]. *)
Definition includes (s sub : string) : Prop :=
  exists before after, s = before ++ sub ++ after.

Inductive outcome (A : Type) : Type :=
| Return (a : A) : outcome A
| Throw (e : Error) : outcome A.

Arguments Throw {A} e.

Definition bind {A B : Type} (c : outcome A) (k : A -> outcome B) : outcome B :=
  match c with
  | Return a => k a
  | Throw e => Throw e
  end.

Notation "x <- c ;; k" := (bind c (fun x => k))
  (at level 61, c at next level, right associativity).
Notation "' p <- c ;; k" := (bind c (fun x => match x with p => k end))
  (at level 61, p pattern, c at next level, right associativity).


(** ** The host framework's hooks *)

(** React is the host framework, not part of the repository; its hooks are
    embedded by their documented contract, with the memory the host keeps
    for a hook passed explicitly. *)

Module React.

(** A hook reads the memory cell the host keeps for it ([None] on the
    first render of a mounted component) and leaves the cell for the next
    render. *)
Definition Hook (M V : Type) : Type := option M -> V * option M.

(** [Dispatch<A>]: calling the function with an action updates the cell of
    the reducer hook it belongs to. *)
Definition Dispatch (S A : Type) : Type := A -> S -> S.

Definition Reducer (S A : Type) : Type := S -> A -> S.

(** [useReducer(reducer, initialArg)]: the first render starts from
    [initialArg], later renders return the remembered state; the dispatch
    function is the same at every render.  A dispatch function is embedded
    by what calling it does, so the functions of two mounts, which are two
    objects for the host, are not told apart here; nothing below compares
    dispatch functions of different mounts. *)
Definition useReducer {S A : Type} (reducer : Reducer S A) (initialArg : S)
  : Hook S (S * Dispatch S A) :=
  fun cell =>
    let state := match cell with
                 | Some remembered => remembered
                 | None => initialArg
                 end in
    ((state, fun action prev => reducer prev action), Some state).

(** [useCallback(fn, deps)] returns [fn], or the function of an earlier
    render with equal [deps], which is the same closure over the same
    values. *)
Definition useCallback {F D : Type} (fn : F) (deps : D) : F := fn.

(** [useMemo(factory, deps)] returns [factory()], or the result an earlier
    render computed from equal [deps]. *)
Definition useMemo {X D : Type} (factory : unit -> X) (deps : D) : X :=
  factory tt.

End React.

(** ** The hooked context *)

Module HookedContext.

Section WithHook.

(** [P]: the provider's props; [M]: the memory of the hook; [V]: the
    value the hook returns, which the context holds. *)
Variables P M V : Type.

(** Modelled from the spec: the state of the object that
    [createHookedContext] of [./hooked-context] returns, whose source is
    missing: the memory cell of the hook run by the mounted provider, the
    value held in the host framework's context slot ([None] when no provider
    is mounted), and the display name. *)
Record Store : Type := {
  cell : option M;
  slot : option V;
  displayName : option string
}.

(** Modelled from the spec: [createHookedContext] of [./hooked-context],
    whose source is missing.  The value lives in the host framework's context
    slot, is created when a provider mounts and destroyed when it unmounts;
    a fresh context has no provider and no name. *)
Definition createHookedContext : Store :=
  {| cell := None; slot := None; displayName := None |}.

Variable useHook : P -> React.Hook M V.

(** Modelled from the spec: [createHookedContext(useHook).Provider]
    mounting.  The provider injects into the slot what the hook given to the
    factory returns for the provider's props, run on a fresh cell. *)
Definition mount (props : P) (ctx : Store) : Store :=
  let '(held, memory) := useHook props None in
  {| cell := memory; slot := Some held; displayName := displayName ctx |}.

(** Modelled from the spec: a later render of the mounted provider, which
    runs the hook on its cell; nothing is rendered without a mounted
    provider. *)
Definition render (props : P) (ctx : Store) : Store :=
  match slot ctx with
  | None => ctx
  | Some _ =>
      let '(held, memory) := useHook props (cell ctx) in
      {| cell := memory; slot := Some held; displayName := displayName ctx |}
  end.

(** Modelled from the spec: the provider unmounting. *)
Definition unmount (ctx : Store) : Store :=
  {| cell := None; slot := None; displayName := displayName ctx |}.

(** Modelled from the spec: an update [u] of the hook's cell (a dispatched
    action), after which the host renders the provider again. *)
Definition update (u : M -> M) (props : P) (ctx : Store) : Store :=
  render props
    {| cell := option_map u (cell ctx);
       slot := slot ctx;
       displayName := displayName ctx |}.

(** Modelled from the spec: [useValue()] of the hooked context reads the
    slot; without a mounted provider the read fails with
    [MissingStateContextError].  The spec does not describe a read without a
    provider, and [reducer-context.tsx] throws nothing itself; the failure
    is taken from the error class of the repository, whose constructor takes
    a display name and whose message says when it is raised: on an attempt
    to read the value of a state context whose provider is not mounted. *)
Definition useValue (ctx : Store) : outcome V :=
  match slot ctx with
  | Some held => Return held
  | None => Throw (MissingStateContextError (displayName ctx))
  end.

(** Modelled from the spec: [useSelectedValue(selector)] of the hooked
    context, the value the selector derives from the held value. *)
Definition useSelectedValue {R : Type} (selector : V -> R) (ctx : Store)
  : outcome R :=
  held <- useValue ctx ;; Return (selector held).

(** Modelled from the spec: [useSelectedValues(selector)] of the hooked
    context, for selectors that return an array or tuple; it differs from
    [useSelectedValue] only in how the host decides to render again. *)
Definition useSelectedValues {R : Type} (selector : V -> R) (ctx : Store)
  : outcome R :=
  held <- useValue ctx ;; Return (selector held).

(** Modelled from the spec: assigning to the [displayName] property of the
    hooked context. *)
Definition set_displayName (value : option string) (ctx : Store) : Store :=
  {| cell := cell ctx; slot := slot ctx; displayName := value |}.

(** Modelled from the spec: reading the [displayName] property of the
    hooked context. *)
Definition get_displayName (ctx : Store) : option string :=
  displayName ctx.

End WithHook.

Arguments createHookedContext {M V}.

End HookedContext.

(** ** A sample reducer *)

(** A counter whose state is [number | null]: an action is the amount to add,
    and a state that is not a number counts as zero. *)
Module Counter.

Definition reducer : React.Reducer (js nat) nat :=
  fun state action =>
    match state with
    | defined n => defined (n + action)
    | undefined | null => defined action
    end.

Definition defaultValue : js nat := defined 0.

Definition dispatch : React.Dispatch (js nat) nat :=
  fun action prev => reducer prev action.

End Counter.

(** ** [src/reducer-context.tsx] *)

Module ReducerContext.

(** [ReducerContextProviderProps<State>]; an absent [value] reads as
    [undefined]. *)
Module ProviderProps.
Record t (State Node : Type) : Type := {
  value : State;
  children : Node
}.
End ProviderProps.

(** [ReducerContextConsumerProps<State, Action>]. *)
Module ConsumerProps.
Record t (State Dispatch Element : Type) : Type := {
  children : State -> Dispatch -> Element
}.
End ConsumerProps.

(** [ReducerContextSelectorProps<State, R, Action>] and
    [ReducerContextSelectorsProps<State, R, Action>]. *)
Module SelectorProps.
Record t (State R Dispatch Element : Type) : Type := {
  selector : State -> R;
  children : R -> Dispatch -> Element
}.
End SelectorProps.

Section createReducerContext.

(** [T]: the values of the type parameter [State] other than [null] and
    [undefined]; [E]: the values an array of selected states may hold
    besides functions; [Node] and [Element]: [React.ReactNode] and
    [JSX.Element]. *)
Variables T Action E Node Element : Type.

Definition State : Type := js T.
Definition Dispatch : Type := React.Dispatch State Action.

(** [type ContextValue<State, Action> = [State, Dispatch<Action>]] *)
Definition ContextValue (S : Type) : Type := (S * Dispatch)%type.

Definition ReducerTuple : Type := ContextValue State.
Definition ReducerProvider : Type := ProviderProps.t State Node.

(** The elements of an [any[]] that is built from a dispatch function and
    selected states. *)
Inductive any : Type :=
| any_undefined : any
| any_dispatch (dispatch : Dispatch) : any
| any_value (e : E) : any.

(** The arguments of [createReducerContext(reducer, defaultValue)]. *)
Variable reducer : React.Reducer State Action.
Variable defaultValue : State.

(** The hook given to [createHookedContext]:
    [({ value }) => useReducer(reducer, value ?? defaultValue)]. *)
Definition useHook (props : ReducerProvider)
  : React.Hook State ReducerTuple :=
  let value := ProviderProps.value props in
  React.useReducer reducer (value ?? defaultValue).

(** The state of the object [InternalContext]. *)
Definition InternalContext : Type := HookedContext.Store State ReducerTuple.

Definition useState (ctx : InternalContext) : outcome ReducerTuple :=
  HookedContext.useValue ctx.

Definition useValue (ctx : InternalContext) : outcome State :=
  let internalSelector :=
    React.useCallback (fun '((next, _) : ReducerTuple) => next) tt in
  HookedContext.useSelectedValue internalSelector ctx.

Definition useDispatch (ctx : InternalContext) : outcome Dispatch :=
  let internalSelector :=
    React.useCallback (fun '((_, dispatch) : ReducerTuple) => dispatch) tt in
  HookedContext.useSelectedValue internalSelector ctx.

Definition useSelectedState {R : Type} (selector : State -> R)
    (ctx : InternalContext) : outcome (ContextValue R) :=
  let internalSelector :=
    React.useCallback
      (fun '((next, dispatch) : ReducerTuple) => (selector next, dispatch))
      selector in
  HookedContext.useSelectedValues internalSelector ctx.

Definition useSelectedValue {R : Type} (selector : State -> R)
    (ctx : InternalContext) : outcome R :=
  let internalSelector :=
    React.useCallback (fun '((next, _) : ReducerTuple) => selector next)
      selector in
  HookedContext.useSelectedValue internalSelector ctx.

(** The combined array is an [any[]]; the cast [states as R] does nothing
    at run time, so the result holds what the destructuring found. *)
Definition useSelectedStates (selector : State -> list any)
    (ctx : InternalContext) : outcome (list any * any) :=
  let internalSelector :=
    React.useCallback
      (fun '((next, dispatch) : ReducerTuple) =>
         any_dispatch dispatch :: selector next)
      selector in
  values <- HookedContext.useSelectedValues internalSelector ctx ;;
  Return
    (React.useMemo
       (fun _ =>
          let '(dispatch, states) := destructure_rest values in
          (states, match dispatch with
                   | Some d => d
                   | None => any_undefined
                   end))
       values).

Definition useSelectedValues {R : Type} (selector : State -> R)
    (ctx : InternalContext) : outcome R :=
  let internalSelector :=
    React.useCallback (fun '((next, _) : ReducerTuple) => selector next)
      selector in
  HookedContext.useSelectedValues internalSelector ctx.

(** [Provider] renders [InternalContext.Provider] and hands it its own
    [value] and [children]; the result is the props of that element. *)
Definition Provider (props : ReducerProvider) : ReducerProvider :=
  let value := ProviderProps.value props in
  let children := ProviderProps.children props in
  {| ProviderProps.value := value; ProviderProps.children := children |}.

Definition Consumer (props : ConsumerProps.t State Dispatch Element)
    (ctx : InternalContext) : outcome Element :=
  let children := ConsumerProps.children props in
  '(state, setState) <- useState ctx ;;
  Return (children state setState).

Definition Selector {R : Type}
    (props : SelectorProps.t State R Dispatch Element)
    (ctx : InternalContext) : outcome Element :=
  let selector := SelectorProps.selector props in
  let children := SelectorProps.children props in
  '(state, setState) <- useSelectedState selector ctx ;;
  Return (children state setState).

(** [children] of [Selectors] receives what [useSelectedStates] returns,
    an array and the element found in front of it. *)
Definition Selectors
    (props : SelectorProps.t State (list any) any Element)
    (ctx : InternalContext) : outcome Element :=
  let selector := SelectorProps.selector props in
  let children := SelectorProps.children props in
  '(state, setState) <- useSelectedStates selector ctx ;;
  Return (children state setState).

(** [set displayName(value)] and [get displayName()] of the returned
    object. *)
Definition set_displayName (value : option string) (ctx : InternalContext)
  : InternalContext :=
  HookedContext.set_displayName value ctx.

Definition get_displayName (ctx : InternalContext) : option string :=
  HookedContext.get_displayName ctx.

(** *** The life of the stored pair *)

(** A [Provider] with [props] mounts. *)
Definition mounting (props : ReducerProvider) (ctx : InternalContext)
  : InternalContext :=
  HookedContext.mount useHook (Provider props) ctx.

(** The mounted [Provider] renders again with [props]. *)
Definition rendering (props : ReducerProvider) (ctx : InternalContext)
  : InternalContext :=
  HookedContext.render useHook (Provider props) ctx.

(** [dispatch(action)] is called while the [Provider] has [props]. *)
Definition dispatching (dispatch : Dispatch) (action : Action)
    (props : ReducerProvider) (ctx : InternalContext) : InternalContext :=
  HookedContext.update useHook (dispatch action) (Provider props) ctx.

(** The state in the stored pair. *)
Definition stored_state (ctx : InternalContext) : option State :=
  option_map fst (HookedContext.slot ctx).

(** The states of [InternalContext] while a [Provider] is mounted. *)
Inductive provided : InternalContext -> Prop :=
| provided_mount props ctx :
    provided (mounting props ctx)
| provided_render props ctx :
    provided ctx -> provided (rendering props ctx)
| provided_dispatch state dispatch action props ctx :
    provided ctx ->
    HookedContext.slot ctx = Some (state, dispatch) ->
    provided (dispatching dispatch action props ctx).


(** Actions dispatched one after the other, each through the dispatch
    function the context holds at that time. *)
Fixpoint dispatching_all (actions : list Action) (props : ReducerProvider)
    (ctx : InternalContext) : InternalContext :=
  match actions with
  | [] => ctx
  | action :: rest =>
      match HookedContext.slot ctx with
      | Some (_, dispatch) =>
          dispatching_all rest props (dispatching dispatch action props ctx)
      | None => ctx
      end
  end.

(** *** What the hooks and components return *)

Ltac reads H :=
  cbv beta zeta delta
    [useState useValue useDispatch useSelectedState useSelectedValue
     useSelectedValues useSelectedStates Consumer Selector Selectors
     HookedContext.useSelectedValue HookedContext.useSelectedValues
     HookedContext.useValue React.useCallback React.useMemo];
  rewrite H; simpl.

Lemma useValue_holds (ctx : InternalContext) pair :
  HookedContext.slot ctx = Some pair ->
  HookedContext.useValue ctx = Return pair.
Proof. intros H. unfold HookedContext.useValue. now rewrite H. Qed.

Lemma useValue_missing (ctx : InternalContext) :
  HookedContext.slot ctx = None ->
  useState ctx
  = Throw (MissingStateContextError (HookedContext.displayName ctx)).
Proof. intros H. now reads H. Qed.

(** C2: when the hooked context holds the pair (s, d), useState returns
    the pair, useValue returns s and useDispatch returns d. *)
Theorem hooks_read_stored_pair (ctx : InternalContext) s d :
  HookedContext.slot ctx = Some (s, d) ->
  useState ctx = Return (s, d)
  /\ useValue ctx = Return s
  /\ useDispatch ctx = Return d.
Proof. intros H. repeat split; now reads H. Qed.

(** C3: useSelectedValue(f) returns f(s), which is f applied to what
    useValue returns; with the identity as selector it returns the whole
    state. *)
Theorem useSelectedValue_selects (R : Type) (f : State -> R)
    (ctx : InternalContext) s d :
  HookedContext.slot ctx = Some (s, d) ->
  useSelectedValue f ctx = Return (f s)
  /\ useSelectedValue f ctx = (v <- useValue ctx ;; Return (f v))
  /\ useSelectedValue (fun whole => whole) ctx = Return s.
Proof. intros H. repeat split; now reads H. Qed.

(** C4: useSelectedStates(f) returns the pair of f(s) and d: putting the
    dispatch function in front of the selected array and taking the
    combined array apart again gives back the same array, element by
    element and in the same order, and the same dispatch function. *)
Theorem useSelectedStates_round_trip (f : State -> list any)
    (ctx : InternalContext) s d :
  HookedContext.slot ctx = Some (s, d) ->
  useSelectedStates f ctx = Return (f s, any_dispatch d).
Proof. intros H. now reads H. Qed.

(** The two halves of the round trip of [useSelectedStates]. *)
Lemma destructure_rest_cons {X : Type} (head : X) (rest : list X) :
  destructure_rest (head :: rest) = (Some head, rest).
Proof. reflexivity. Qed.

Lemma useSelectedStates_keeps_elements (f : State -> list any)
    (ctx : InternalContext) s d states dispatch :
  HookedContext.slot ctx = Some (s, d) ->
  useSelectedStates f ctx = Return (states, dispatch) ->
  length states = length (f s)
  /\ forall i, nth_error states i = nth_error (f s) i.
Proof.
  intros H. reads H. intros Hr. inversion Hr; subst. now split.
Qed.

(** C6: the Consumer renders its children on the stored state and the
    stored dispatch function. *)
Theorem Consumer_renders_children (c : State -> Dispatch -> Element)
    (ctx : InternalContext) s d :
  HookedContext.slot ctx = Some (s, d) ->
  Consumer {| ConsumerProps.children := c |} ctx = Return (c s d).
Proof. intros H. now reads H. Qed.

(** C7: the Selector renders its children on f(s) and d, and
    useSelectedState(f) returns the pair of f(s) and d. *)
Theorem Selector_renders_children (R : Type) (f : State -> R)
    (c : R -> Dispatch -> Element) (ctx : InternalContext) s d :
  HookedContext.slot ctx = Some (s, d) ->
  Selector {| SelectorProps.selector := f; SelectorProps.children := c |} ctx
  = Return (c (f s) d)
  /\ useSelectedState f ctx = Return (f s, d).
Proof. intros H. split; now reads H. Qed.

(** X2: the Selectors component renders its children on the selected array
    f(s) and on the stored dispatch function. *)
Lemma Selectors_renders_children (f : State -> list any)
    (c : list any -> any -> Element) (ctx : InternalContext) s d :
  HookedContext.slot ctx = Some (s, d) ->
  Selectors {| SelectorProps.selector := f; SelectorProps.children := c |} ctx
  = Return (c (f s) (any_dispatch d)).
Proof. intros H. now reads H. Qed.

(** X1: useSelectedValues(f) returns f(s). *)
Lemma useSelectedValues_selects (R : Type) (f : State -> R)
    (ctx : InternalContext) s d :
  HookedContext.slot ctx = Some (s, d) ->
  useSelectedValues f ctx = Return (f s).
Proof. intros H. now reads H. Qed.

(** C8: a display name that was set is the one read back. *)
Theorem displayName_set_get (ctx : InternalContext) (v : string) :
  get_displayName (set_displayName (Some v) ctx) = Some v.
Proof. reflexivity. Qed.

Lemma displayName_set_get_any (ctx : InternalContext) (v : option string) :
  get_displayName (set_displayName v ctx) = v.
Proof. reflexivity. Qed.

Lemma displayName_set_keeps_slot (ctx : InternalContext) v :
  HookedContext.slot (set_displayName v ctx) = HookedContext.slot ctx.
Proof. reflexivity. Qed.

(** *** Mounting *)

Lemma mounting_slot props (ctx : InternalContext) :
  HookedContext.slot (mounting props ctx)
  = Some (ProviderProps.value props ?? defaultValue,
          fun action prev => reducer prev action).
Proof. reflexivity. Qed.

(** C5, amended: mounted with a value that is neither null nor undefined,
    the state starts as that value; mounted without a value, it starts as
    the default value of the factory. *)
Theorem mounting_initial_state (v : T) (children : Node)
    (ctx : InternalContext) :
  stored_state
    (mounting {| ProviderProps.value := defined v;
                 ProviderProps.children := children |} ctx)
  = Some (defined v)
  /\ stored_state
       (mounting {| ProviderProps.value := undefined;
                    ProviderProps.children := children |} ctx)
     = Some defaultValue.
Proof. split; reflexivity. Qed.

(** C9: mounted with the value null, the state starts as the default
    value of the factory, as it does with undefined. *)
Theorem mounting_null_takes_default (children : Node)
    (ctx : InternalContext) :
  stored_state
    (mounting {| ProviderProps.value := null;
                 ProviderProps.children := children |} ctx)
  = Some defaultValue
  /\ stored_state
       (mounting {| ProviderProps.value := null;
                    ProviderProps.children := children |} ctx)
     = stored_state
         (mounting {| ProviderProps.value := undefined;
                      ProviderProps.children := children |} ctx).
Proof. split; reflexivity. Qed.

(** *** Dispatching *)

(** While a provider is mounted the context holds the state of the hook's
    cell and the dispatch function of [useReducer(reducer, _)]. *)
Lemma provided_holds (ctx : InternalContext) :
  provided ctx ->
  exists state,
    HookedContext.cell ctx = Some state
    /\ HookedContext.slot ctx
       = Some (state, fun action prev => reducer prev action).
Proof.
  induction 1 as [props ctx | props ctx _ IH
                 | state dispatch action props ctx _ IH Hslot].
  - eexists. split; reflexivity.
  - destruct IH as (state & Hcell & Hslot).
    exists state. unfold rendering, HookedContext.render.
    rewrite Hslot, Hcell. split; reflexivity.
  - destruct IH as (state' & Hcell & Hslot').
    exists (dispatch action state').
    unfold dispatching, HookedContext.update, HookedContext.render.
    simpl. rewrite Hslot', Hcell. split; reflexivity.
Qed.

Lemma dispatching_from_cell (ctx : InternalContext) state a props :
  HookedContext.cell ctx = Some state ->
  HookedContext.slot ctx
  = Some (state, fun action prev => reducer prev action) ->
  HookedContext.slot
    (dispatching (fun action prev => reducer prev action) a props ctx)
  = Some (reducer state a, fun action prev => reducer prev action).
Proof.
  intros Hcell Hslot.
  unfold dispatching, HookedContext.update, HookedContext.render.
  simpl. rewrite Hslot, Hcell. reflexivity.
Qed.

Lemma dispatching_slot (ctx : InternalContext) s d a props :
  provided ctx ->
  HookedContext.slot ctx = Some (s, d) ->
  HookedContext.slot (dispatching d a props ctx)
  = Some (reducer s a, d).
Proof.
  intros Hp Hslot.
  destruct (provided_holds Hp) as (state & Hcell & Hslot').
  rewrite Hslot' in Hslot. injection Hslot as -> <-.
  now apply dispatching_from_cell.
Qed.

(** C1: dispatching a while the stored state is s replaces it with
    reducer(s, a), for the reducer given to the factory, and leaves the
    stored dispatch function as it was. *)
Theorem dispatching_applies_reducer (ctx : InternalContext) s d a props :
  provided ctx ->
  HookedContext.slot ctx = Some (s, d) ->
  HookedContext.slot (dispatching d a props ctx)
  = Some (reducer s a, d)
  /\ option_map snd (HookedContext.slot (dispatching d a props ctx))
     = option_map snd (HookedContext.slot ctx).
Proof.
  intros Hp Hslot.
  rewrite (dispatching_slot a props Hp Hslot), Hslot. now split.
Qed.

(** X5: a mounted provider that renders again, with whatever value prop,
    keeps the stored pair: the value prop only matters at mount. *)
Lemma rendering_keeps_pair (ctx : InternalContext) props :
  provided ctx ->
  HookedContext.slot (rendering props ctx) = HookedContext.slot ctx.
Proof.
  intros Hp. destruct (provided_holds Hp) as (state & Hcell & Hslot).
  unfold rendering, HookedContext.render. rewrite Hslot, Hcell.
  reflexivity.
Qed.

(** X4: actions dispatched one after the other leave the reducer folded
    over them, from the left, as stored state, and the same dispatch
    function. *)
Lemma dispatching_all_folds actions : forall ctx s d props,
  provided ctx ->
  HookedContext.slot ctx = Some (s, d) ->
  HookedContext.slot (dispatching_all actions props ctx)
  = Some (fold_left reducer actions s, d).
Proof.
  induction actions as [|a rest IH]; intros ctx s d props Hp Hslot.
  - exact Hslot.
  - simpl. rewrite Hslot. apply IH.
    + now apply provided_dispatch with (state := s).
    + now apply dispatching_slot.
Qed.

Lemma unmount_destroys (ctx : InternalContext) :
  useState (HookedContext.unmount ctx)
  = Throw (MissingStateContextError (HookedContext.displayName ctx)).
Proof. reflexivity. Qed.

(** *** How the hooks and components relate *)




(** X9: whatever useSelectedStates(g) returns, the array is g of the stored
    state and the second component is the stored dispatch function; it is
    never the undefined that destructuring an empty array would give. *)
Theorem useSelectedStates_returns (g : State -> list any)
    (ctx : InternalContext) states second :
  useSelectedStates g ctx = Return (states, second) ->
  second <> any_undefined
  /\ exists s d,
       HookedContext.slot ctx = Some (s, d)
       /\ states = g s
       /\ second = any_dispatch d.
Proof.
  destruct (HookedContext.slot ctx) as [[s d]|] eqn:Hslot.
  - reads Hslot. intros Hr. inversion Hr; subst. split.
    + discriminate.
    + exists s, d. repeat split.
  - reads Hslot. discriminate.
Qed.

(** *** Invariants of the stored pair *)

(** X10: a property of states that holds of every initial state and that
    the reducer keeps holds of the stored state for as long as a provider is
    mounted, and there the context holds a pair. *)
Theorem provided_keeps_invariant (Inv : State -> Prop)
    (ctx : InternalContext) :
  (forall value, Inv (value ?? defaultValue)) ->
  (forall s a, Inv s -> Inv (reducer s a)) ->
  provided ctx ->
  exists s d, HookedContext.slot ctx = Some (s, d) /\ Inv s.
Proof.
  intros Hinit Hstep Hp.
  assert (exists s,
             HookedContext.cell ctx = Some s
             /\ HookedContext.slot ctx
                = Some (s, fun action prev => reducer prev action)
             /\ Inv s) as (s & _ & Hslot & Hinv).
  { induction Hp as [props ctx | props ctx _ IH
                    | state dispatch action props ctx Hp IH Hslot].
    - eexists. repeat split. apply Hinit.
    - destruct IH as (s & Hcell & Hslot & Hinv).
      exists s. unfold rendering, HookedContext.render.
      rewrite Hslot, Hcell. repeat split. exact Hinv.
    - destruct IH as (s & Hcell & Hslot' & Hinv).
      rewrite Hslot' in Hslot. injection Hslot as <- <-.
      exists (reducer s action).
      unfold dispatching, HookedContext.update, HookedContext.render.
      simpl. rewrite Hslot', Hcell. repeat split. now apply Hstep. }
  now exists s, (fun action prev => reducer prev action).
Qed.



End createReducerContext.


Arguments any_undefined {T Action E}.
Arguments any_dispatch {T Action E} dispatch.
Arguments any_value {T Action E} e.
Arguments provided {T Action} Node reducer defaultValue ctx.

(** *** The theorems at the counter *)

Local Notation "'counter_mounted' value" :=
  (mounting Counter.reducer Counter.defaultValue
     {| ProviderProps.value := value; ProviderProps.children := tt |}
     HookedContext.createHookedContext) (at level 10, value at level 9).

Lemma dispatching_applies_reducer_witness :
  let props := {| ProviderProps.value := defined 7;
                  ProviderProps.children := tt |} in
  let after :=
    dispatching Counter.reducer Counter.defaultValue Counter.dispatch 2
      props (counter_mounted (defined 1)) in
  provided unit Counter.reducer Counter.defaultValue
    (counter_mounted (defined 1))
  /\ HookedContext.slot (counter_mounted (defined 1))
     = Some (defined 1, Counter.dispatch)
  /\ HookedContext.slot after = Some (defined 3, Counter.dispatch)
  /\ option_map snd (HookedContext.slot after)
     = option_map snd (HookedContext.slot (counter_mounted (defined 1))).
Proof.
  intros props after.
  split; [apply provided_mount|]. split; [reflexivity|].
  exact (@dispatching_applies_reducer nat nat unit
           Counter.reducer Counter.defaultValue
           (counter_mounted (defined 1)) (defined 1) Counter.dispatch 2 props
           (provided_mount _ _ _ _) eq_refl).
Defined.

Lemma hooks_read_stored_pair_witness :
  HookedContext.slot (counter_mounted (defined 1))
     = Some (defined 1, Counter.dispatch)
  /\ useState (counter_mounted (defined 1))
     = Return (defined 1, Counter.dispatch)
  /\ useValue (counter_mounted (defined 1)) = Return (defined 1)
  /\ useDispatch (counter_mounted (defined 1)) = Return Counter.dispatch.
Proof.
  split; [reflexivity|].
  apply (hooks_read_stored_pair (counter_mounted (defined 1))).
  reflexivity.
Defined.

Lemma useSelectedValue_selects_witness :
  let is_one (state : js nat) :=
    match state with defined 1 => true | _ => false end in
  HookedContext.slot (counter_mounted (defined 1))
     = Some (defined 1, Counter.dispatch)
  /\ useSelectedValue is_one (counter_mounted (defined 1)) = Return true
  /\ useSelectedValue is_one (counter_mounted (defined 1))
     = (v <- useValue (counter_mounted (defined 1)) ;; Return (is_one v))
  /\ useSelectedValue (fun whole => whole) (counter_mounted (defined 1))
     = Return (defined 1).
Proof.
  intros is_one. split; [reflexivity|].
  apply (useSelectedValue_selects is_one (counter_mounted (defined 1))
           (s := defined 1) (d := Counter.dispatch)).
  reflexivity.
Defined.

Lemma useSelectedStates_round_trip_witness :
  let both (state : State nat) : list (any nat nat nat) :=
    match state with
    | defined n => [any_value n; any_value (n + n)]
    | undefined | null => []
    end in
  HookedContext.slot (counter_mounted (defined 1))
     = Some (defined 1, Counter.dispatch)
  /\ useSelectedStates both (counter_mounted (defined 1))
     = Return ([any_value 1; any_value 2], any_dispatch Counter.dispatch).
Proof.
  intros both. split; [reflexivity|].
  apply (useSelectedStates_round_trip both (counter_mounted (defined 1))
           (s := defined 1) (d := Counter.dispatch)).
  reflexivity.
Defined.

Lemma Consumer_renders_children_witness :
  let c (state : State nat) (_ : Dispatch nat nat) :=
    match state with defined n => n | _ => 0 end in
  HookedContext.slot (counter_mounted (defined 1))
     = Some (defined 1, Counter.dispatch)
  /\ Consumer {| ConsumerProps.children := c |} (counter_mounted (defined 1))
     = Return 1.
Proof.
  intros c. split; [reflexivity|].
  apply (Consumer_renders_children c (counter_mounted (defined 1))
           (s := defined 1) (d := Counter.dispatch)).
  reflexivity.
Defined.

Lemma Selector_renders_children_witness :
  let f (state : State nat) :=
    match state with defined n => n + n | _ => 0 end in
  let c (selected : nat) (_ : Dispatch nat nat) := selected + 1 in
  HookedContext.slot (counter_mounted (defined 1))
     = Some (defined 1, Counter.dispatch)
  /\ Selector {| SelectorProps.selector := f; SelectorProps.children := c |}
       (counter_mounted (defined 1))
     = Return 3
  /\ useSelectedState f (counter_mounted (defined 1))
     = Return (2, Counter.dispatch).
Proof.
  intros f c. split; [reflexivity|].
  apply (Selector_renders_children f c (counter_mounted (defined 1))
           (s := defined 1) (d := Counter.dispatch)).
  reflexivity.
Defined.

(** C5 as stated fails: null is a value of the state type [number | null],
    and a provider mounted with it starts from the default value, not from
    null. *)
Lemma mounting_null_value_counterexample :
  let props := {| ProviderProps.value := @null nat;
                  ProviderProps.children := tt |} in
  ProviderProps.value props <> undefined
  /\ stored_state
       (mounting Counter.reducer Counter.defaultValue props
          HookedContext.createHookedContext)
     = Some (defined 0)
  /\ stored_state
       (mounting Counter.reducer Counter.defaultValue props
          HookedContext.createHookedContext)
     <> Some (ProviderProps.value props).
Proof.
  simpl. repeat split; discriminate.
Qed.

(** *** Further theorems at the counter *)

Lemma useSelectedValues_selects_witness :
  let both (state : State nat) : list nat :=
    match state with
    | defined n => [n; n + n]
    | undefined | null => []
    end in
  HookedContext.slot (counter_mounted (defined 1))
  = Some (defined 1, Counter.dispatch)
  /\ useSelectedValues both (counter_mounted (defined 1)) = Return [1; 2].
Proof.
  intros both. split; [reflexivity|].
  apply (useSelectedValues_selects both (counter_mounted (defined 1))
           (s := defined 1) (d := Counter.dispatch)).
  reflexivity.
Defined.

Lemma Selectors_renders_children_witness :
  let both (state : State nat) : list (any nat nat nat) :=
    match state with
    | defined n => [any_value n; any_value (n + n)]
    | undefined | null => []
    end in
  let c (states : list (any nat nat nat)) (_ : any nat nat nat) :=
    length states in
  HookedContext.slot (counter_mounted (defined 1))
  = Some (defined 1, Counter.dispatch)
  /\ Selectors {| SelectorProps.selector := both;
                  SelectorProps.children := c |}
       (counter_mounted (defined 1))
     = Return 2.
Proof.
  intros both c. split; [reflexivity|].
  apply (Selectors_renders_children both c (counter_mounted (defined 1))
           (s := defined 1) (d := Counter.dispatch)).
  reflexivity.
Defined.

Lemma dispatching_all_folds_witness :
  let props := {| ProviderProps.value := defined 7;
                  ProviderProps.children := tt |} in
  provided unit Counter.reducer Counter.defaultValue
    (counter_mounted (defined 1))
  /\ HookedContext.slot (counter_mounted (defined 1))
     = Some (defined 1, Counter.dispatch)
  /\ HookedContext.slot
       (dispatching_all Counter.reducer Counter.defaultValue [2; 3] props
          (counter_mounted (defined 1)))
     = Some (defined 6, Counter.dispatch).
Proof.
  intros props.
  split; [apply provided_mount|]. split; [reflexivity|].
  exact (@dispatching_all_folds nat nat unit
           Counter.reducer Counter.defaultValue [2; 3]
           (counter_mounted (defined 1)) (defined 1) Counter.dispatch props
           (provided_mount _ _ _ _) eq_refl).
Defined.

Lemma rendering_keeps_pair_witness :
  let props := {| ProviderProps.value := defined 7;
                  ProviderProps.children := tt |} in
  provided unit Counter.reducer Counter.defaultValue
    (counter_mounted (defined 1))
  /\ HookedContext.slot
       (rendering Counter.reducer Counter.defaultValue props
          (counter_mounted (defined 1)))
     = Some (defined 1, Counter.dispatch).
Proof.
  intros props. split; [apply provided_mount|].
  exact (@rendering_keeps_pair nat nat unit
           Counter.reducer Counter.defaultValue
           (counter_mounted (defined 1)) props (provided_mount _ _ _ _)).
Defined.

Lemma useSelectedStates_returns_witness :
  let both (state : State nat) : list (any nat nat nat) :=
    match state with
    | defined n => [any_value n; any_value (n + n)]
    | undefined | null => []
    end in
  useSelectedStates both (counter_mounted (defined 1))
  = Return ([any_value 1; any_value 2], any_dispatch Counter.dispatch)
  /\ any_dispatch (E := nat) Counter.dispatch <> any_undefined
  /\ exists s d,
       HookedContext.slot (counter_mounted (defined 1)) = Some (s, d)
       /\ [any_value 1; any_value 2] = both s
       /\ any_dispatch (E := nat) Counter.dispatch = any_dispatch d.
Proof.
  intros both. split; [reflexivity|].
  apply (@useSelectedStates_returns nat nat nat both
           (counter_mounted (defined 1))).
  reflexivity.
Defined.

Lemma provided_keeps_invariant_witness :
  let is_number (state : State nat) :=
    match state with defined _ => True | undefined | null => False end in
  let props := {| ProviderProps.value := @null nat;
                  ProviderProps.children := tt |} in
  let ctx :=
    dispatching Counter.reducer Counter.defaultValue Counter.dispatch 2
      props (counter_mounted null) in
  provided unit Counter.reducer Counter.defaultValue ctx
  /\ exists s d, HookedContext.slot ctx = Some (s, d) /\ is_number s.
Proof.
  intros is_number props ctx.
  assert (provided unit Counter.reducer Counter.defaultValue ctx) as Hp.
  { apply provided_dispatch with (state := defined 0);
      [apply provided_mount | reflexivity]. }
  split; [exact Hp|].
  apply (@provided_keeps_invariant nat nat unit
           Counter.reducer Counter.defaultValue is_number ctx).
  - intros [| |v]; exact I.
  - intros [| |v] a H; exact I.
  - exact Hp.
Defined.


End ReducerContext.

(** ** The message of [MissingStateContextError] *)




Example MissingStateContextError_of_Counter :
  message (MissingStateContextError (Some "Counter")) = "
      Attempt to read value from state context 'Counter',
      make sure that the context provider is being used and is mounted
      in the component tree.
    ".
Proof. reflexivity. Qed.

Lemma MissingStateContextError_names_context (name : string) :
  includes (message (MissingStateContextError (Some name))) name.
Proof.
  exists (LF ++ "      Attempt to read value from state context '").
  eexists. reflexivity.
Qed.

Lemma MissingStateContextError_without_name :
  includes (message (MissingStateContextError None)) "'undefined'".
Proof.
  exists (LF ++ "      Attempt to read value from state context ").
  eexists. reflexivity.
Qed.

(** *** Which name a message carries *)

Lemma string_length_append (a b : string) :
  String.length (a ++ b) = String.length a + String.length b.
Proof.
  induction a as [|ch a IH]; simpl; [reflexivity | now rewrite IH].
Qed.

Lemma string_append_cancel_r (a b rest : string) :
  a ++ rest = b ++ rest -> a = b.
Proof.
  intros H.
  assert (String.length a = String.length b) as Hlen.
  { apply (f_equal String.length) in H.
    rewrite !string_length_append in H.
    now apply PeanoNat.Nat.add_cancel_r in H. }
  revert b H Hlen.
  induction a as [|ch a IH]; intros [|ch' b] H Hlen;
    try discriminate; [reflexivity|].
  simpl in H. injection H as -> H. injection Hlen as Hlen.
  now rewrite (IH b H Hlen).
Qed.

(** X12: two errors carry the same message exactly when their names print
    the same; so a context named by the text undefined gets the message of a
    context with no name, and no other two names share a message. *)
Theorem MissingStateContextError_message_inj (a b : option string) :
  message (MissingStateContextError a) = message (MissingStateContextError b)
  <-> ToString a = ToString b.
Proof.
  unfold MissingStateContextError, message. split.
  - intros H. unfold LF in H. simpl in H.
    repeat (injection H as H).
    exact (string_append_cancel_r _ _ _ H).
  - intros ->. reflexivity.
Qed.

Lemma MissingStateContextError_undefined_name :
  message (MissingStateContextError (Some "undefined"))
  = message (MissingStateContextError None).
Proof. reflexivity. Qed.
